(** * Explorer view: shared view context, view dispatcher, entry activation

    A shallow embedding of [Explorer/ViewContext.ts] and of the explorer
    [View] component (the [ViewItem] wrapper and the memoised default export),
    followed by the properties proved about them.

    Conventions of the embedding:
    - a JS [number] that holds a database id or a count is a [Z];
    - an optional or nullable value is an [option]; where the source tests a
      value for truthiness the test is written out ([truthy_number],
      [truthy_node], ...);
    - a call that may throw returns a [Completion];
    - the requests a handler hands to its collaborators ([navigate],
      [updateAccessTime.mutate], [openFilePath]) are appended, in issue order,
      to an outbox; the handler never reads an answer back, which is what
      makes them detached. *)

From Stdlib Require Import ZArith List String Bool Lia QArith DecimalString.
From Stdlib Require Import DecimalZ DecimalPos.
Import ListNotations.

Open Scope string_scope.
Open Scope list_scope.
Open Scope Z_scope.

(** ** Completions and the outbox monad *)

Inductive Completion (A : Type) : Type :=
| Normal (value : A)
| Throw (message : string).
Arguments Normal {A} value.
Arguments Throw {A} message.

(** What an event handler can ask of its collaborators. *)
Inductive Request : Type :=
| Navigate (pathname : string) (search : list (string * string))
| UpdateAccessTime (object_id : Z)
| OpenFilePath (library_uuid : string) (file_path_id : Z).

(** A handler body: it completes with a value and the requests it issued. *)
Definition Eff (A : Type) : Type := Completion (A * list Request).

Definition ret {A} (a : A) : Eff A := Normal (a, []).

Definition bind {A B} (m : Eff A) (k : A -> Eff B) : Eff B :=
  match m with
  | Normal (a, out1) =>
      match k a with
      | Normal (b, out2) => Normal (b, out1 ++ out2)
      | Throw msg => Throw msg
      end
  | Throw msg => Throw msg
  end.

Definition issue (r : Request) : Eff unit := Normal (tt, [r]).

Notation "m ;; k" := (bind m (fun _ => k)) (at level 61, right associativity).
Notation "x <- m ;;; k" := (bind m (fun x => k))
  (at level 61, m at next level, right associativity).

(** Truthiness of a nullable object reference: any object, never [null]. *)
Definition truthy_object {A} (o : option A) : bool :=
  match o with
  | Some _ => true
  | None => false
  end.

(** Member access [o.field] on a nullable reference: a [TypeError] on [null]. *)
Definition member {A} (o : option A) (field : string) : Eff A :=
  match o with
  | Some a => ret a
  | None => Throw ("TypeError: Cannot read properties of null (reading '"
                     ++ field ++ "')")
  end.

(** ** Data model *)

Module FilePath.
Record t : Type := mk {
  id : Z;
  is_dir : bool;
  materialized_path : string;
  name : string;
  location_id : Z;
  object_id : option Z
}.
End FilePath.

Module ObjectRow.
Record t : Type := mk { id : Z }.
End ObjectRow.

(** [ExplorerItem]: [{ type: 'Path', item }] or [{ type: 'Object', item }]. *)
Inductive ExplorerItem : Type :=
| Path (item : FilePath.t)
| Object (item : ObjectRow.t).

(** [item.item.id] *)
Definition item_id (data : ExplorerItem) : Z :=
  match data with
  | Path item => FilePath.id item
  | Object item => ObjectRow.id item
  end.

(** Modelled from the spec: [isPath] of the client package is not among the
    sources; it is the type guard that holds of the [Path] variant. *)
Definition isPath (data : ExplorerItem) : bool :=
  match data with
  | Path _ => true
  | Object _ => false
  end.

(** Truthiness of a JS number: every number but zero. *)
Definition truthy_number (n : Z) : bool := negb (n =? 0).

(** Template-literal rendering of an integral number. *)
Definition string_of_number (n : Z) : string :=
  NilZero.string_of_int (Z.to_int n).

Record Library : Type := { uuid : string }.

(** [usePlatform()]: [openFilePath] is an optional member; the field tells
    whether the platform defines it. *)
Record Platform : Type := { openFilePath : bool }.

Record ExplorerStore : Type := {
  isRenaming : bool;
  quickViewObject : option ExplorerItem
}.

Record ExplorerConfigStore : Type := { openOnDoubleClick : bool }.

(** [createSearchParams(init)]: the parameters are kept as the key/value list
    handed to the router; their URL encoding is the router's business. *)
Definition createSearchParams (init : list (string * string))
  : list (string * string) := init.

(** ** Entry activation wrapper: [ViewItem.onDoubleClick] *)

Section ViewItem.

(** [getItemFilePath] lives in [Explorer/util], which is not among the
    sources: it resolves an item to its file-path record, or to nothing. *)
Variable getItemFilePath : ExplorerItem -> option FilePath.t.

Variable library : Library.
Variable platform : Platform.
Variable explorerStore : ExplorerStore.
Variable explorerConfig : ExplorerConfigStore.

(** [isPath(data) && data.item.is_dir], with [data] narrowed to the [Path]
    variant where the test succeeds. *)
Definition directory_of (data : ExplorerItem) : option FilePath.t :=
  match data with
  | Path item => if isPath data && FilePath.is_dir item then Some item else None
  | Object _ => None
  end.

(** [data.type === 'Path' && data.item.object_id], narrowed likewise. *)
Definition accessed_object (data : ExplorerItem) : option Z :=
  match data with
  | Path item =>
      match FilePath.object_id item with
      | Some oid => if truthy_number oid then Some oid else None
      | None => None
      end
  | Object _ => None
  end.

(** [`${getItemFilePath(data)?.location_id}`] *)
Definition location_segment (data : ExplorerItem) : string :=
  match getItemFilePath data with
  | Some fp => string_of_number (FilePath.location_id fp)
  | None => "undefined"
  end.

Definition onDoubleClick (data : ExplorerItem) : Eff unit :=
  let filePath := getItemFilePath data in
  match directory_of data with
  | Some item =>
      issue (Navigate
               ("/" ++ uuid library ++ "/location/" ++ location_segment data)%string
               (createSearchParams
                  [("path",
                    (FilePath.materialized_path item ++ FilePath.name item
                       ++ "/")%string)]))
  | None =>
      if openFilePath platform
         && truthy_object filePath
         && openOnDoubleClick explorerConfig
         && negb (isRenaming explorerStore)
      then
        match accessed_object data with
        | Some oid => issue (UpdateAccessTime oid)
        | None => ret tt
        end ;;
        fp <- member filePath "id" ;;;
        issue (OpenFilePath (uuid library) (FilePath.id fp))
      else ret tt
  end.

End ViewItem.

(** ** React values *)

(** A React element is opaque here: only its identity matters. *)
Record Element : Type := { element_type : string; element_key : Z }.

(** [ReactNode]: what may stand as a child. *)
#[warnings="-register-all"]
Inductive ReactNode : Type :=
| NodeUndefined
| NodeNull
| NodeBoolean (b : bool)
| NodeNumber (n : Z)
| NodeString (s : string)
| NodeElement (e : Element)
| NodeFragment (children : list ReactNode).

Definition truthy_node (n : ReactNode) : bool :=
  match n with
  | NodeUndefined | NodeNull => false
  | NodeBoolean b => b
  | NodeNumber z => truthy_number z
  | NodeString s => negb (String.eqb s "")
  | NodeElement _ | NodeFragment _ => true
  end.

(** The [phosphor-react] icon components the view refers to, and any other. *)
Inductive Icon : Type :=
| GridFour
| MonitorPlay
| Columns
| Rows
| OtherIcon (displayName : string).

(** A value of type [Icon | ReactNode]. *)
Inductive IconProp : Type :=
| IconComponent (component : Icon)
| IconNode (node : ReactNode).

Definition truthy_icon (i : IconProp) : bool :=
  match i with
  | IconComponent _ => true
  | IconNode n => truthy_node n
  end.

(** [isValidElement(v)] *)
Definition isValidElement_icon (i : IconProp) : option Element :=
  match i with
  | IconNode (NodeElement e) => Some e
  | _ => None
  end.

(** ** Shared view context: [ViewContext.ts] *)

Inductive ExplorerViewSelection : Type :=
| Single (id : Z)
| Multiple (ids : list Z).

Inductive Padding : Type :=
| PaddingAll (n : Z)
| PaddingXY (x y : option Z).

(** A function value: one the caller passed in, named by a handle, or the
    state setter the dispatcher got from [useState]. *)
Inductive Callback : Type :=
| CallerCallback (handle : nat)
| StateSetter.

Module ExplorerViewContext.
Record t : Type := mk {
  items : option (list ExplorerItem);
  scrollRef : nat;
  selected : option ExplorerViewSelection;
  onSelectedChange : option Callback;
  overscan : option Z;
  onLoadMore : option Callback;
  rowsBeforeLoadMore : option Z;
  top : option Z;
  multiSelect : option bool;
  contextMenu : ReactNode;
  setIsContextMenuOpen : option Callback;
  selectable : option bool;
  padding : option Padding
}.
End ExplorerViewContext.

(** [useContext(ViewContext)]: the value of the nearest enclosing provider
    (innermost first), or the default the context was created with, [null]. *)
Definition useContext (providers : list (option ExplorerViewContext.t))
  : option ExplorerViewContext.t :=
  match providers with
  | value :: _ => value
  | [] => None
  end.

Definition useExplorerViewContext (providers : list (option ExplorerViewContext.t))
  : Completion ExplorerViewContext.t :=
  match useContext providers with
  | None => Throw "ViewContext.Provider not found!"
  | Some ctx => Normal ctx
  end.

(** ** View dispatcher: the default export of the view module *)

Inductive ExplorerLayoutMode : Type := grid | media | columns | rows.

Module EmptyNotice.
(** [{ icon?, message? }]: [None] is a key the object does not have. *)
Record descriptor : Type := mkDescriptor {
  icon : option IconProp;
  message : option ReactNode
}.

(** [JSX.Element | { icon?; message? } | null] *)
Inductive t : Type :=
| element (e : Element)
| object (d : descriptor)
| null.
End EmptyNotice.

Module ExplorerViewProps.
Record t : Type := mk {
  layout : ExplorerLayoutMode;
  className : option string;
  emptyNotice : option EmptyNotice.t;
  contextProps : ExplorerViewContext.t
}.
End ExplorerViewProps.

Record KeyboardEvent : Type := { code : string; defaultPrevented : bool }.

Definition preventDefault (e : KeyboardEvent) : KeyboardEvent :=
  {| code := code e; defaultPrevented := true |}.

(** [Array.isArray(selected)] *)
Definition isArray (selected : option ExplorerViewSelection) : bool :=
  match selected with
  | Some (Multiple _) => true
  | _ => false
  end.

(** [Array.isArray(selected) ? selected[0] : selected]; [None] is
    [undefined], which no id is equal to. *)
Definition first_selected (selected : option ExplorerViewSelection) : option Z :=
  match selected with
  | Some (Multiple ids) => nth_error ids 0
  | Some (Single id) => Some id
  | None => None
  end.

(** [item.item.id === v] *)
Definition id_is (v : option Z) (item : ExplorerItem) : bool :=
  match v with
  | Some id => item_id item =? id
  | None => false
  end.

(** [items?.find(pred)] *)
Definition find_item (pred : ExplorerItem -> bool) (items : option (list ExplorerItem))
  : option ExplorerItem :=
  match items with
  | Some l => find pred l
  | None => None
  end.

(** The handler registered with [useKey('Space', ...)]. *)
Definition onSpace (contextProps : ExplorerViewContext.t)
    (store : ExplorerStore) (e : KeyboardEvent) : ExplorerStore * KeyboardEvent :=
  let e := preventDefault e in
  match quickViewObject store with
  | None =>
      let selectedItem :=
        find_item
          (id_is (first_selected (ExplorerViewContext.selected contextProps)))
          (ExplorerViewContext.items contextProps) in
      match selectedItem with
      | Some item =>
          ({| isRenaming := isRenaming store; quickViewObject := Some item |}, e)
      | None => (store, e)
      end
  | Some _ =>
      ({| isRenaming := isRenaming store; quickViewObject := None |}, e)
  end.

(** The [switch (layout)] of [emptyNoticeIcon]. *)
Definition layout_icon (layout : ExplorerLayoutMode) : Icon :=
  match layout with
  | grid => GridFour
  | media => MonitorPlay
  | columns => Columns
  | rows => Rows
  end.

(** How the icon slot of the empty notice is filled: by an element taken as
    it is, or by [<Icon size={..} opacity={..} />]. *)
Inductive IconRendering : Type :=
| IconVerbatim (e : Element)
| IconElement (type : IconProp) (size : Z) (opacity : Q).

(** [emptyNoticeIcon(icon)]; called without argument, [icon] is [undefined]. *)
Definition emptyNoticeIcon (layout : ExplorerLayoutMode) (icon : IconProp)
  : IconRendering :=
  let Icon := icon in
  let Icon :=
    if negb (truthy_icon Icon) then IconComponent (layout_icon layout) else Icon in
  IconElement Icon 100 (3 # 10)%Q.

Inductive Renderer : Type := GridView | ListView | MediaView.

(** The child of the root [div]. *)
Inductive Content : Type :=
| Provider (value : ExplorerViewContext.t) (children : list Renderer)
| Nothing
| Verbatim (e : Element)
| Notice (icon : IconRendering) (message : ReactNode).

Record Rendered : Type := { root_className : string; content : Content }.

(** [clsx('h-full w-full', className)] *)
Definition clsx (base : string) (className : option string) : string :=
  match className with
  | Some c => if String.eqb c "" then base else (base ++ " " ++ c)%string
  | None => base
  end.

Definition layout_eqb (a b : ExplorerLayoutMode) : bool :=
  match a, b with
  | grid, grid | media, media | columns, columns | rows, rows => true
  | _, _ => false
  end.

(** [{cond && <R />}]: a [false] child mounts nothing. *)
Definition mount (cond : bool) (r : Renderer) : list Renderer :=
  if cond then [r] else [].

(** [emptyNotice && 'icon' in emptyNotice], then [emptyNotice.icon]. *)
Definition icon_entry (emptyNotice : option EmptyNotice.t) : option IconProp :=
  match emptyNotice with
  | Some (EmptyNotice.object d) => EmptyNotice.icon d
  | _ => None
  end.

(** [emptyNotice && 'message' in emptyNotice], then [emptyNotice.message]. *)
Definition message_entry (emptyNotice : option EmptyNotice.t) : option ReactNode :=
  match emptyNotice with
  | Some (EmptyNotice.object d) => EmptyNotice.message d
  | _ => None
  end.

Definition ExplorerView (props : ExplorerViewProps.t) (isContextMenuOpen : bool)
  : Rendered :=
  let layout := ExplorerViewProps.layout props in
  let emptyNotice := ExplorerViewProps.emptyNotice props in
  let contextProps := ExplorerViewProps.contextProps props in
  let items := ExplorerViewContext.items contextProps in
  {| root_className := clsx "h-full w-full" (ExplorerViewProps.className props);
     content :=
       if negb (truthy_object items)
          || match items with
             | Some l => (Z.of_nat (List.length l) >? 0)
             | None => false
             end
       then
         Provider
           {| ExplorerViewContext.items := items;
              ExplorerViewContext.scrollRef :=
                ExplorerViewContext.scrollRef contextProps;
              ExplorerViewContext.selected :=
                ExplorerViewContext.selected contextProps;
              ExplorerViewContext.onSelectedChange :=
                ExplorerViewContext.onSelectedChange contextProps;
              ExplorerViewContext.overscan :=
                ExplorerViewContext.overscan contextProps;
              ExplorerViewContext.onLoadMore :=
                ExplorerViewContext.onLoadMore contextProps;
              ExplorerViewContext.rowsBeforeLoadMore :=
                ExplorerViewContext.rowsBeforeLoadMore contextProps;
              ExplorerViewContext.top := ExplorerViewContext.top contextProps;
              ExplorerViewContext.contextMenu :=
                ExplorerViewContext.contextMenu contextProps;
              ExplorerViewContext.padding :=
                ExplorerViewContext.padding contextProps;
              ExplorerViewContext.multiSelect :=
                Some (isArray (ExplorerViewContext.selected contextProps));
              ExplorerViewContext.selectable := Some (negb isContextMenuOpen);
              ExplorerViewContext.setIsContextMenuOpen := Some StateSetter |}
           (mount (layout_eqb layout grid) GridView
              ++ mount (layout_eqb layout rows) ListView
              ++ mount (layout_eqb layout media) MediaView)
       else
         match emptyNotice with
         | Some EmptyNotice.null => Nothing
         | Some (EmptyNotice.element e) => Verbatim e
         | _ =>
             Notice
               match icon_entry emptyNotice with
               | Some icon =>
                   match isValidElement_icon icon with
                   | Some e => IconVerbatim e
                   | None => emptyNoticeIcon layout icon
                   end
               | None => emptyNoticeIcon layout (IconNode NodeUndefined)
               end
               match message_entry emptyNotice with
               | Some message => message
               | None => NodeString "This list is empty"
               end
         end |}.

(** ** The wrapper's context-menu wiring *)

(** The props [ViewItem] hands to [ContextMenu.Root]. *)
Record ContextMenuRoot : Type := {
  onOpenChange : option Callback;
  disabled : bool;
  asChild : bool;
  menu : ReactNode
}.

Definition ViewItem (providers : list (option ExplorerViewContext.t))
  : Completion ContextMenuRoot :=
  match useExplorerViewContext providers with
  | Throw msg => Throw msg
  | Normal explorerView =>
      Normal
        {| onOpenChange := ExplorerViewContext.setIsContextMenuOpen explorerView;
           disabled := negb (truthy_node (ExplorerViewContext.contextMenu explorerView));
           asChild := false;
           menu := ExplorerViewContext.contextMenu explorerView |}
  end.

(** The menu opening or closing calls [onOpenChange(isOpen)]; when that is the
    dispatcher's state setter, the dispatcher's flag takes the value. *)
Definition fire_onOpenChange (root : ContextMenuRoot) (isOpen : bool)
    (isContextMenuOpen : bool) : bool :=
  match onOpenChange root with
  | Some StateSetter => isOpen
  | Some (CallerCallback _) | None => isContextMenuOpen
  end.

(** * Vocabulary of the statements *)

(** [sel] is the first selected id: the selection itself when it is a scalar,
    its first element when it is a list. *)
Definition selection_head (selected : option ExplorerViewSelection) (sel : Z) : Prop :=
  selected = Some (Single sel) \/ exists rest, selected = Some (Multiple (sel :: rest)).

(** [item] is the first element of [l] whose id is [sel]. *)
Definition first_with_id (sel : Z) (l : list ExplorerItem) (item : ExplorerItem) : Prop :=
  exists before after,
    l = before ++ item :: after
    /\ item_id item = sel
    /\ Forall (fun x => item_id x <> sel) before.

(** The content is one of the empty-state outcomes, not a bound renderer. *)
Definition empty_state (c : Content) : bool :=
  match c with
  | Provider _ _ => false
  | Nothing | Verbatim _ | Notice _ _ => true
  end.

(** The default icon slot: the layout's icon at size 100, opacity 0.3. *)
Definition layout_icon_rendering (layout : ExplorerLayoutMode) : IconRendering :=
  IconElement (IconComponent (layout_icon layout)) 100 (3 # 10)%Q.

(** The dispatcher's flag after the menu below [root] reported the open
    states [events], oldest first. *)
Definition after_open_changes (root : ContextMenuRoot) (events : list bool)
    (isContextMenuOpen : bool) : bool :=
  fold_left (fun flag isOpen => fire_onOpenChange root isOpen flag) events
    isContextMenuOpen.

(** The renderer wired to a layout; [columns] has none. *)
Definition renderer_of (layout : ExplorerLayoutMode) : list Renderer :=
  match layout with
  | grid => [GridView]
  | rows => [ListView]
  | media => [MediaView]
  | columns => []
  end.

(** * Example data *)

(** A resolver for the examples: a [Path] item resolves to its own record,
    an [Object] item to nothing. *)
Definition own_record (data : ExplorerItem) : option FilePath.t :=
  match data with
  | Path item => Some item
  | Object _ => None
  end.

Definition reports_dir : FilePath.t :=
  FilePath.mk 41 true "/docs/" "reports" 7 None.

Definition notes_file : FilePath.t :=
  FilePath.mk 42 false "/docs/" "notes.txt" 7 (Some 9).

Definition a_library : Library := {| uuid := "lib-1" |}.

Definition example_context (items : option (list ExplorerItem))
    (selected : option ExplorerViewSelection) : ExplorerViewContext.t :=
  ExplorerViewContext.mk items 0%nat selected None None None None None None
    NodeUndefined None None None.

Definition example_props (layout : ExplorerLayoutMode)
    (emptyNotice : option EmptyNotice.t) (items : option (list ExplorerItem))
    (selected : option ExplorerViewSelection) : ExplorerViewProps.t :=
  ExplorerViewProps.mk layout None emptyNotice (example_context items selected).

(** What the dispatcher binds for [example_props] over one file, selected in
    a list, while a context menu is open. *)
Definition example_bound : ExplorerViewContext.t :=
  ExplorerViewContext.mk (Some [Path notes_file]) 0%nat (Some (Multiple [42]))
    None None None None None (Some true) NodeUndefined (Some StateSetter)
    (Some false) None.

(** * Properties *)

(** ** Helper facts *)

Lemma directory_of_Some (data : ExplorerItem) (item : FilePath.t) :
  directory_of data = Some item <->
  data = Path item /\ FilePath.is_dir item = true.
Proof.
  destruct data as [p | o]; simpl.
  - destruct (FilePath.is_dir p) eqn:Hdir; split.
    + intros H; inversion H; subst; auto.
    + intros [H _]; inversion H; reflexivity.
    + discriminate.
    + intros [H Hd]; inversion H; subst; congruence.
  - split; [discriminate | intros [H _]; discriminate].
Qed.

Lemma directory_of_file (item : FilePath.t) :
  FilePath.is_dir item = false -> directory_of (Path item) = None.
Proof. intros H; simpl; rewrite H; reflexivity. Qed.

Lemma accessed_object_Some (item : FilePath.t) (oid : Z) :
  FilePath.object_id item = Some oid -> oid <> 0 ->
  accessed_object (Path item) = Some oid.
Proof.
  intros Hobj Hnz; simpl; rewrite Hobj.
  unfold truthy_number.
  destruct (Z.eqb_spec oid 0); [contradiction | reflexivity].
Qed.

Lemma directory_of_None (data : ExplorerItem) :
  (forall item, data = Path item -> FilePath.is_dir item = false) ->
  directory_of data = None.
Proof.
  destruct data as [p | o]; intros H; [| reflexivity].
  apply directory_of_file, H; reflexivity.
Qed.

(** ** Entry activation *)

(** The handler completes normally on every input: the only member access
    that could throw, [filePath.id], sits behind the test of [filePath]. *)
Lemma onDoubleClick_never_throws
    (getItemFilePath : ExplorerItem -> option FilePath.t)
    (library : Library) (platform : Platform)
    (explorerStore : ExplorerStore) (explorerConfig : ExplorerConfigStore)
    (data : ExplorerItem) :
  exists out,
    onDoubleClick getItemFilePath library platform explorerStore explorerConfig data
    = Normal (tt, out).
Proof.
  unfold onDoubleClick.
  destruct (directory_of data); [eexists; reflexivity |].
  destruct (openFilePath platform); [| eexists; reflexivity].
  destruct (getItemFilePath data); [| eexists; reflexivity].
  destruct (openOnDoubleClick explorerConfig); [| eexists; reflexivity].
  destruct (isRenaming explorerStore); [eexists; reflexivity |].
  destruct (accessed_object data); eexists; reflexivity.
Qed.

(** An item of the [Object] kind, or a [Path] item without object id, that
    passes the gates gets the open-file request alone. *)
Lemma onDoubleClick_open_only
    (getItemFilePath : ExplorerItem -> option FilePath.t)
    (library : Library) (platform : Platform)
    (explorerStore : ExplorerStore) (explorerConfig : ExplorerConfigStore)
    (data : ExplorerItem) (fp : FilePath.t) :
  directory_of data = None ->
  accessed_object data = None ->
  openFilePath platform = true ->
  getItemFilePath data = Some fp ->
  openOnDoubleClick explorerConfig = true ->
  isRenaming explorerStore = false ->
  onDoubleClick getItemFilePath library platform explorerStore explorerConfig data
  = Normal (tt, [OpenFilePath (uuid library) (FilePath.id fp)]).
Proof.
  intros Hdir Hobj Hopen Hfp Hpref Hren.
  unfold onDoubleClick.
  rewrite Hdir, Hobj, Hopen, Hfp, Hpref, Hren.
  reflexivity.
Qed.

(** C1. A double-activation of a non-directory [Path] item, with the platform
    able to open files, a file-path record resolved for the item, the
    open-on-double-click preference on and no rename under way: when the item
    carries an object id (a row id, hence not zero, which is what the code's
    truthiness test asks), the handler completes normally having issued
    exactly two requests, the access-time update for that id first and the
    open-file request for the library and the resolved record's id second. *)
Theorem onDoubleClick_access_time_then_open
    (getItemFilePath : ExplorerItem -> option FilePath.t)
    (library : Library) (platform : Platform)
    (explorerStore : ExplorerStore) (explorerConfig : ExplorerConfigStore)
    (item fp : FilePath.t) (oid : Z) :
  FilePath.is_dir item = false ->
  openFilePath platform = true ->
  getItemFilePath (Path item) = Some fp ->
  openOnDoubleClick explorerConfig = true ->
  isRenaming explorerStore = false ->
  FilePath.object_id item = Some oid ->
  oid <> 0 ->
  onDoubleClick getItemFilePath library platform explorerStore explorerConfig
    (Path item)
  = Normal (tt, [UpdateAccessTime oid;
                 OpenFilePath (uuid library) (FilePath.id fp)]).
Proof.
  intros Hdir Hopen Hfp Hpref Hren Hobj Hnz.
  unfold onDoubleClick.
  rewrite (directory_of_file item Hdir), Hfp, Hopen, Hpref, Hren.
  rewrite (accessed_object_Some item oid Hobj Hnz).
  reflexivity.
Qed.

Lemma onDoubleClick_access_time_then_open_witness :
  onDoubleClick own_record a_library {| openFilePath := true |}
    {| isRenaming := false; quickViewObject := None |}
    {| openOnDoubleClick := true |} (Path notes_file)
  = Normal (tt, [UpdateAccessTime 9; OpenFilePath "lib-1" 42]).
Proof.
  apply (onDoubleClick_access_time_then_open own_record a_library
           {| openFilePath := true |}
           {| isRenaming := false; quickViewObject := None |}
           {| openOnDoubleClick := true |} notes_file notes_file 9);
    solve [reflexivity | lia].
Defined.

(** C2. A double-activation of a non-directory item with at least one of the
    four gates closed completes normally and issues nothing: no navigation,
    no access-time update, no open-file request, and nothing is thrown. *)
Theorem onDoubleClick_closed_gate_is_noop
    (getItemFilePath : ExplorerItem -> option FilePath.t)
    (library : Library) (platform : Platform)
    (explorerStore : ExplorerStore) (explorerConfig : ExplorerConfigStore)
    (data : ExplorerItem) :
  (forall item, data = Path item -> FilePath.is_dir item = false) ->
  openFilePath platform = false
  \/ getItemFilePath data = None
  \/ openOnDoubleClick explorerConfig = false
  \/ isRenaming explorerStore = true ->
  onDoubleClick getItemFilePath library platform explorerStore explorerConfig data
  = Normal (tt, []).
Proof.
  intros Hfile Hgate.
  unfold onDoubleClick.
  rewrite (directory_of_None data Hfile).
  destruct Hgate as [H | [H | [H | H]]]; rewrite H; simpl.
  - reflexivity.
  - rewrite andb_false_r; reflexivity.
  - rewrite andb_false_r; reflexivity.
  - rewrite andb_false_r; reflexivity.
Qed.

Lemma onDoubleClick_closed_gate_is_noop_witness :
  onDoubleClick own_record a_library {| openFilePath := true |}
    {| isRenaming := false; quickViewObject := None |}
    {| openOnDoubleClick := false |} (Path notes_file)
  = Normal (tt, []).
Proof.
  apply (onDoubleClick_closed_gate_is_noop own_record a_library
           {| openFilePath := true |}
           {| isRenaming := false; quickViewObject := None |}
           {| openOnDoubleClick := false |} (Path notes_file)).
  - intros item Hitem; inversion Hitem; reflexivity.
  - right; right; left; reflexivity.
Defined.

(** C3. A double-activation of a directory item, whose resolved file-path
    record is of the item's own location, issues exactly one request: a
    navigation to [/<library>/location/<location id>] whose [path] parameter
    is the item's materialized path, then its name, then a slash. *)
Theorem onDoubleClick_directory_navigates
    (getItemFilePath : ExplorerItem -> option FilePath.t)
    (library : Library) (platform : Platform)
    (explorerStore : ExplorerStore) (explorerConfig : ExplorerConfigStore)
    (item fp : FilePath.t) :
  FilePath.is_dir item = true ->
  getItemFilePath (Path item) = Some fp ->
  FilePath.location_id fp = FilePath.location_id item ->
  onDoubleClick getItemFilePath library platform explorerStore explorerConfig
    (Path item)
  = Normal (tt,
      [Navigate
         ("/" ++ uuid library ++ "/location/"
              ++ string_of_number (FilePath.location_id item))%string
         [("path",
           (FilePath.materialized_path item ++ FilePath.name item ++ "/")%string)]]).
Proof.
  intros Hdir Hfp Hloc.
  unfold onDoubleClick, location_segment; simpl.
  rewrite Hdir, Hfp, Hloc.
  reflexivity.
Qed.

Lemma onDoubleClick_directory_navigates_witness :
  onDoubleClick own_record a_library {| openFilePath := false |}
    {| isRenaming := true; quickViewObject := None |}
    {| openOnDoubleClick := false |} (Path reports_dir)
  = Normal (tt, [Navigate "/lib-1/location/7" [("path", "/docs/reports/")]]).
Proof.
  apply (onDoubleClick_directory_navigates own_record a_library
           {| openFilePath := false |}
           {| isRenaming := true; quickViewObject := None |}
           {| openOnDoubleClick := false |} reports_dir reports_dir);
    reflexivity.
Defined.

(** C10. For a directory item the navigation request is issued whatever the
    state of the open gates: the platform capability, the preference, the
    rename flag and even what the file-path resolver answers are not
    consulted to decide it; the request issued is the same throughout. *)
Theorem onDoubleClick_directory_ignores_gates
    (getItemFilePath : ExplorerItem -> option FilePath.t)
    (library : Library) (platform : Platform)
    (explorerStore : ExplorerStore) (explorerConfig : ExplorerConfigStore)
    (item : FilePath.t) :
  FilePath.is_dir item = true ->
  onDoubleClick getItemFilePath library platform explorerStore explorerConfig
    (Path item)
  = Normal (tt,
      [Navigate
         ("/" ++ uuid library ++ "/location/"
              ++ location_segment getItemFilePath (Path item))%string
         [("path",
           (FilePath.materialized_path item ++ FilePath.name item ++ "/")%string)]]).
Proof.
  intros Hdir.
  unfold onDoubleClick; simpl.
  rewrite Hdir.
  reflexivity.
Qed.

Lemma onDoubleClick_directory_ignores_gates_witness :
  onDoubleClick own_record a_library {| openFilePath := false |}
    {| isRenaming := true; quickViewObject := Some (Path notes_file) |}
    {| openOnDoubleClick := false |} (Path reports_dir)
  = Normal (tt, [Navigate "/lib-1/location/7" [("path", "/docs/reports/")]]).
Proof.
  apply (onDoubleClick_directory_ignores_gates own_record a_library
           {| openFilePath := false |}
           {| isRenaming := true; quickViewObject := Some (Path notes_file) |}
           {| openOnDoubleClick := false |} reports_dir).
  reflexivity.
Defined.

(** ** Quick-view key *)

Lemma selection_head_first_selected selected sel :
  selection_head selected sel <-> first_selected selected = Some sel.
Proof.
  unfold selection_head; split.
  - intros [-> | [rest ->]]; reflexivity.
  - destruct selected as [[id | [| a rest]] |]; simpl; intros H;
      try discriminate; inversion H; subst; eauto.
Qed.

Lemma find_first_with_id sel l item :
  first_with_id sel l item -> find (id_is (Some sel)) l = Some item.
Proof.
  intros (before & after & -> & Hid & Hbefore).
  induction Hbefore as [| x before Hx _ IH]; simpl.
  - rewrite Hid, Z.eqb_refl; reflexivity.
  - destruct (Z.eqb_spec (item_id x) sel); [contradiction | exact IH].
Qed.

Lemma find_all_false {A} (f : A -> bool) (l : list A) :
  (forall x, In x l -> f x = false) -> find f l = None.
Proof.
  induction l as [| a l IH]; simpl; intros H; [reflexivity |].
  rewrite (H a (or_introl eq_refl)).
  apply IH; intros x Hx; apply H; right; exact Hx.
Qed.

Lemma find_item_no_match selected items :
  (forall sel l item,
      selection_head selected sel -> items = Some l -> In item l ->
      item_id item <> sel) ->
  find_item (id_is (first_selected selected)) items = None.
Proof.
  intros Hno.
  destruct items as [l |]; [| reflexivity]; simpl.
  destruct (first_selected selected) as [sel |] eqn:Hsel.
  - apply find_all_false; intros x Hx; simpl.
    apply Z.eqb_neq.
    apply (Hno sel l x); auto.
    apply selection_head_first_selected; exact Hsel.
  - apply find_all_false; reflexivity.
Qed.

(** C4. The Space handler always marks the event as default-prevented and
    leaves the rest of the store alone.  With the quick-view slot empty it
    puts there the first item of the collection whose id is the first selected
    id, and changes nothing when no item of the collection has that id (which
    covers a null collection and an empty or absent selection).  With the slot
    occupied it empties the slot, whatever the selection. *)
Theorem onSpace_toggles_quick_view
    (contextProps : ExplorerViewContext.t) (store : ExplorerStore)
    (e : KeyboardEvent) :
  let items := ExplorerViewContext.items contextProps in
  let selected := ExplorerViewContext.selected contextProps in
  let store' := fst (onSpace contextProps store e) in
  let e' := snd (onSpace contextProps store e) in
  defaultPrevented e' = true
  /\ code e' = code e
  /\ isRenaming store' = isRenaming store
  /\ (forall sel l item,
        quickViewObject store = None ->
        selection_head selected sel -> items = Some l ->
        first_with_id sel l item ->
        quickViewObject store' = Some item)
  /\ (quickViewObject store = None ->
      (forall sel l item,
          selection_head selected sel -> items = Some l -> In item l ->
          item_id item <> sel) ->
      store' = store)
  /\ (forall shown,
        quickViewObject store = Some shown -> quickViewObject store' = None).
Proof.
  cbv zeta.
  unfold onSpace.
  repeat split.
  - destruct (quickViewObject store); [reflexivity |].
    destruct (find_item _ _); reflexivity.
  - destruct (quickViewObject store); [reflexivity |].
    destruct (find_item _ _); reflexivity.
  - destruct (quickViewObject store); [reflexivity |].
    destruct (find_item _ _); reflexivity.
  - intros sel l item Hslot Hsel Hitems Hfirst.
    rewrite Hslot, Hitems.
    apply selection_head_first_selected in Hsel; rewrite Hsel.
    simpl; rewrite (find_first_with_id sel l item Hfirst); reflexivity.
  - intros Hslot Hno.
    rewrite Hslot, (find_item_no_match _ _ Hno); reflexivity.
  - intros shown Hslot; rewrite Hslot; reflexivity.
Qed.

(** ** Derived flags of the context *)

(** The render bound a context value, so it took the provider branch: the
    three empty-state outcomes are ruled out. *)
Ltac provider_branch props :=
  destruct (_ || _);
  [| destruct (ExplorerViewProps.emptyNotice props) as [[| |] |]; discriminate].

(** C5. Whenever the dispatcher binds a context value, its [selectable] is
    the negation of the dispatcher's context-menu flag; the setter it binds
    reaches every wrapper below it, so that once a wrapper's menu reports
    opening the next value bound has [selectable] false, and once it reports
    closing, true. *)
Theorem selectable_is_not_context_menu_open
    (props : ExplorerViewProps.t) (isContextMenuOpen : bool)
    (ctx : ExplorerViewContext.t) (children : list Renderer) :
  content (ExplorerView props isContextMenuOpen) = Provider ctx children ->
  ExplorerViewContext.selectable ctx = Some (negb isContextMenuOpen)
  /\ forall outer root isOpen props' ctx' children',
       ViewItem (Some ctx :: outer) = Normal root ->
       content (ExplorerView props' (fire_onOpenChange root isOpen isContextMenuOpen))
       = Provider ctx' children' ->
       ExplorerViewContext.selectable ctx' = Some (negb isOpen).
Proof.
  unfold ExplorerView; simpl.
  provider_branch props.
  intros H; inversion H; subst; clear H; simpl.
  split; [reflexivity |].
  intros outer root isOpen props' ctx' children' Hroot.
  unfold ViewItem in Hroot; simpl in Hroot.
  inversion Hroot; subst; clear Hroot.
  unfold fire_onOpenChange; simpl.
  provider_branch props'.
  intros H; inversion H; subst; reflexivity.
Qed.

(** C6. In every context value the dispatcher binds, the selection is the
    one supplied, and [multiSelect] is true when that selection is a list
    (empty or not) and false when it is a scalar id or absent. *)
Theorem multiSelect_iff_list_selection
    (props : ExplorerViewProps.t) (isContextMenuOpen : bool)
    (ctx : ExplorerViewContext.t) (children : list Renderer) :
  content (ExplorerView props isContextMenuOpen) = Provider ctx children ->
  let selected := ExplorerViewContext.selected (ExplorerViewProps.contextProps props) in
  ExplorerViewContext.selected ctx = selected
  /\ (ExplorerViewContext.multiSelect ctx = Some true <->
      exists ids, selected = Some (Multiple ids))
  /\ (ExplorerViewContext.multiSelect ctx = Some false <->
      selected = None \/ exists id, selected = Some (Single id)).
Proof.
  unfold ExplorerView; simpl.
  provider_branch props.
  intros H; inversion H; subst; clear H; simpl.
  split; [reflexivity |].
  destruct (ExplorerViewContext.selected (ExplorerViewProps.contextProps props))
    as [[id | ids] |]; simpl; repeat split;
    try discriminate; eauto.
  - intros [ids Hids]; discriminate.
  - intros [Hn | [id Hid]]; discriminate.
  - intros [ids Hids]; discriminate.
Qed.

Lemma selectable_is_not_context_menu_open_witness :
  content (ExplorerView
             (example_props grid None (Some [Path notes_file]) (Some (Multiple [42])))
             true)
  = Provider example_bound [GridView]
  /\ ExplorerViewContext.selectable example_bound = Some false.
Proof.
  split; [reflexivity |].
  exact (proj1 (selectable_is_not_context_menu_open
                  (example_props grid None (Some [Path notes_file])
                     (Some (Multiple [42])))
                  true example_bound [GridView] eq_refl)).
Defined.

Lemma multiSelect_iff_list_selection_witness :
  ExplorerViewContext.selected example_bound = Some (Multiple [42])
  /\ (ExplorerViewContext.multiSelect example_bound = Some true <->
      exists ids, Some (Multiple [42]) = Some (Multiple ids))
  /\ (ExplorerViewContext.multiSelect example_bound = Some false <->
      Some (Multiple [42]) = None \/ exists id, Some (Multiple [42]) = Some (Single id)).
Proof.
  exact (multiSelect_iff_list_selection
           (example_props grid None (Some [Path notes_file]) (Some (Multiple [42])))
           true example_bound [GridView] eq_refl).
Defined.

(** ** Empty state *)

(** C7. The dispatcher takes the empty-state path exactly when the item
    collection is a list of length 0.  With a null collection it binds the
    context (carrying the null collection) around the renderer of the layout:
    grid, list and media view for [grid], [rows] and [media], and none for
    [columns], which has no renderer. *)
Theorem empty_state_iff_empty_collection
    (props : ExplorerViewProps.t) (isContextMenuOpen : bool) :
  let items := ExplorerViewContext.items (ExplorerViewProps.contextProps props) in
  let shown := content (ExplorerView props isContextMenuOpen) in
  (empty_state shown = true <-> exists l, items = Some l /\ List.length l = 0%nat)
  /\ (items = None ->
      exists ctx,
        shown = Provider ctx
                  match ExplorerViewProps.layout props with
                  | grid => [GridView]
                  | rows => [ListView]
                  | media => [MediaView]
                  | columns => []
                  end
        /\ ExplorerViewContext.items ctx = None).
Proof.
  cbv zeta; unfold ExplorerView; simpl.
  destruct (ExplorerViewContext.items (ExplorerViewProps.contextProps props))
    as [[| a l] |]; simpl.
  - split.
    + split; [intros _; exists []; auto |].
      intros _.
      destruct (ExplorerViewProps.emptyNotice props) as [[| |] |]; reflexivity.
    + discriminate.
  - split; [| discriminate].
    split; [discriminate |].
    intros (l' & Hl' & Hlen); inversion Hl'; subst; discriminate.
  - split.
    + split; [discriminate | intros (l' & Hl' & _); discriminate].
    + intros _; eexists; split; [destruct (ExplorerViewProps.layout props) |];
        reflexivity.
Qed.

(** C8. With a non-null, empty item collection: an explicit [null] notice
    renders nothing; a notice that is an element renders as it is; otherwise
    (no notice, or a descriptor object) an icon is rendered above a message.
    The icon is the descriptor's [icon] entry when it has one that is truthy
    (taken as it is when an element, else mounted at size 100 and opacity
    0.3), and the layout's icon otherwise; the four layouts have four
    different icons.  The message is the descriptor's [message] entry when it
    has one, and the text "This list is empty" otherwise. *)
Theorem empty_notice_resolution
    (props : ExplorerViewProps.t) (isContextMenuOpen : bool) :
  ExplorerViewContext.items (ExplorerViewProps.contextProps props) = Some [] ->
  let layout := ExplorerViewProps.layout props in
  let emptyNotice := ExplorerViewProps.emptyNotice props in
  let shown := content (ExplorerView props isContextMenuOpen) in
  (emptyNotice = Some EmptyNotice.null -> shown = Nothing)
  /\ (forall e, emptyNotice = Some (EmptyNotice.element e) -> shown = Verbatim e)
  /\ (emptyNotice = None ->
      shown = Notice (layout_icon_rendering layout)
                (NodeString "This list is empty"))
  /\ (forall d, emptyNotice = Some (EmptyNotice.object d) ->
      exists icon message,
        shown = Notice icon message
        /\ (EmptyNotice.icon d = None -> icon = layout_icon_rendering layout)
        /\ (forall e, EmptyNotice.icon d = Some (IconNode (NodeElement e)) ->
            icon = IconVerbatim e)
        /\ (forall v, EmptyNotice.icon d = Some v ->
            isValidElement_icon v = None -> truthy_icon v = true ->
            icon = IconElement v 100 (3 # 10)%Q)
        /\ (forall v, EmptyNotice.icon d = Some v -> truthy_icon v = false ->
            icon = layout_icon_rendering layout)
        /\ (forall m, EmptyNotice.message d = Some m -> message = m)
        /\ (EmptyNotice.message d = None ->
            message = NodeString "This list is empty"))
  /\ (forall l1 l2, layout_icon l1 = layout_icon l2 -> l1 = l2).
Proof.
  intros Hitems; cbv zeta; unfold ExplorerView; simpl.
  rewrite Hitems; simpl.
  split; [intros ->; reflexivity |].
  split; [intros e ->; reflexivity |].
  split; [intros ->; reflexivity |].
  split.
  - intros d ->; simpl.
    eexists; eexists; split; [reflexivity |].
    repeat split.
    + intros ->; reflexivity.
    + intros e ->; reflexivity.
    + intros v -> Hel Htruthy; rewrite Hel.
      unfold emptyNoticeIcon; rewrite Htruthy; reflexivity.
    + intros v -> Hfalsy.
      destruct v as [c | [| | b | n | s | e | ch]]; simpl in Hfalsy;
        try discriminate;
        unfold emptyNoticeIcon; simpl; rewrite ?Hfalsy; reflexivity.
    + intros m ->; reflexivity.
    + intros ->; reflexivity.
  - intros [] []; simpl; intros H; try reflexivity; discriminate.
Qed.

Lemma empty_notice_resolution_witness :
  content (ExplorerView
             (example_props media
                (Some (EmptyNotice.object
                         (EmptyNotice.mkDescriptor None (Some (NodeString "No photos")))))
                (Some []) None)
             false)
  = Notice (IconElement (IconComponent MonitorPlay) 100 (3 # 10)%Q)
      (NodeString "No photos").
Proof.
  pose proof (empty_notice_resolution
                (example_props media
                   (Some (EmptyNotice.object
                            (EmptyNotice.mkDescriptor None
                               (Some (NodeString "No photos")))))
                   (Some []) None)
                false eq_refl) as H.
  destruct H as (_ & _ & _ & H & _).
  destruct (H _ eq_refl) as (icon & message & Hshown & Hicon & _ & _ & _ & Hmsg & _).
  rewrite Hshown, (Hicon eq_refl), (Hmsg _ eq_refl).
  reflexivity.
Defined.

(** ** Reading the context *)

(** C9. Read where no provider is bound, the context hook throws the
    "provider not found" error, and so does the wrapper that reads through
    it; in general the hook throws whenever the nearest binding is absent or
    null, and what it returns normally is always the value bound by the
    nearest provider, never a default. *)
Theorem useExplorerViewContext_unbound_throws :
  useExplorerViewContext [] = Throw "ViewContext.Provider not found!"
  /\ ViewItem [] = Throw "ViewContext.Provider not found!"
  /\ (forall providers,
        useContext providers = None ->
        useExplorerViewContext providers = Throw "ViewContext.Provider not found!")
  /\ (forall providers ctx,
        useExplorerViewContext providers = Normal ctx ->
        exists outer, providers = Some ctx :: outer).
Proof.
  repeat split.
  - intros providers H; unfold useExplorerViewContext; rewrite H; reflexivity.
  - intros [| [v |] outer] ctx; unfold useExplorerViewContext; simpl; intros H;
      try discriminate.
    inversion H; subst; exists outer; reflexivity.
Qed.

(** * Further properties *)

(** ** Entry activation: what the handler can and cannot issue *)

(** The five ways through the handler, each with its outbox. *)
Lemma onDoubleClick_cases
    (getItemFilePath : ExplorerItem -> option FilePath.t)
    (library : Library) (platform : Platform)
    (explorerStore : ExplorerStore) (explorerConfig : ExplorerConfigStore)
    (data : ExplorerItem) :
  let run :=
    onDoubleClick getItemFilePath library platform explorerStore explorerConfig data in
  let gates fp :=
    openFilePath platform = true /\ getItemFilePath data = Some fp
    /\ openOnDoubleClick explorerConfig = true /\ isRenaming explorerStore = false in
  (exists item p s,
      data = Path item /\ FilePath.is_dir item = true
      /\ run = Normal (tt, [Navigate p s]))
  \/ (directory_of data = None
      /\ (openFilePath platform = false \/ getItemFilePath data = None
          \/ openOnDoubleClick explorerConfig = false
          \/ isRenaming explorerStore = true)
      /\ run = Normal (tt, []))
  \/ (exists fp,
        directory_of data = None /\ gates fp /\ accessed_object data = None
        /\ run = Normal (tt, [OpenFilePath (uuid library) (FilePath.id fp)]))
  \/ (exists fp oid,
        directory_of data = None /\ gates fp /\ accessed_object data = Some oid
        /\ run = Normal (tt, [UpdateAccessTime oid;
                              OpenFilePath (uuid library) (FilePath.id fp)])).
Proof.
  cbv zeta.
  destruct (directory_of data) as [item |] eqn:Hdir.
  - left. apply directory_of_Some in Hdir as [-> Hd].
    unfold onDoubleClick; simpl; rewrite Hd.
    eexists; eexists; eexists.
    split; [reflexivity |]; split; [exact Hd | reflexivity].
  - right.
    unfold onDoubleClick; rewrite Hdir.
    destruct (openFilePath platform);
      [| left; split; [reflexivity |]; split; [auto | reflexivity]].
    destruct (getItemFilePath data) as [fp |];
      [| left; split; [reflexivity |]; split; [auto | reflexivity]].
    destruct (openOnDoubleClick explorerConfig);
      [| left; split; [reflexivity |]; split; [auto | reflexivity]].
    destruct (isRenaming explorerStore);
      [left; split; [reflexivity |]; split; [auto | reflexivity] |].
    right.
    destruct (accessed_object data) as [oid |]; [right | left].
    + exists fp, oid; repeat split.
    + exists fp; repeat split.
Qed.

Lemma accessed_object_inv (data : ExplorerItem) (oid : Z) :
  accessed_object data = Some oid <->
  exists item, data = Path item /\ FilePath.object_id item = Some oid /\ oid <> 0.
Proof.
  split.
  - destruct data as [item | o]; simpl; [| discriminate].
    destruct (FilePath.object_id item) as [z |] eqn:Hobj; [| discriminate].
    unfold truthy_number; destruct (Z.eqb_spec z 0); simpl; [discriminate |].
    intros H; inversion H; subst; exists item; auto.
  - intros (item & -> & Hobj & Hnz); apply accessed_object_Some; assumption.
Qed.

Lemma directory_of_None_inv (data : ExplorerItem) :
  directory_of data = None <->
  (forall item, data = Path item -> FilePath.is_dir item = false).
Proof.
  split; [| apply directory_of_None].
  destruct data as [p | o]; simpl; intros H item Hitem; [| discriminate].
  inversion Hitem; subst.
  destruct (FilePath.is_dir item); [discriminate | reflexivity].
Qed.

(** X1. The handler completes normally on every input, and its outbox has
    one of four shapes: nothing, one navigation, one open-file request, or an
    access-time update followed by one open-file request. *)
Theorem onDoubleClick_outbox_shapes
    (getItemFilePath : ExplorerItem -> option FilePath.t)
    (library : Library) (platform : Platform)
    (explorerStore : ExplorerStore) (explorerConfig : ExplorerConfigStore)
    (data : ExplorerItem) :
  exists out,
    onDoubleClick getItemFilePath library platform explorerStore explorerConfig data
    = Normal (tt, out)
    /\ (out = []
        \/ (exists pathname search, out = [Navigate pathname search])
        \/ (exists id, out = [OpenFilePath (uuid library) id])
        \/ (exists oid id,
              out = [UpdateAccessTime oid; OpenFilePath (uuid library) id])).
Proof.
  destruct (onDoubleClick_cases getItemFilePath library platform explorerStore
              explorerConfig data)
    as [(item & p & s & _ & _ & ->) | [(_ & _ & ->) | [(fp & _ & _ & _ & ->)
       | (fp & oid & _ & _ & _ & ->)]]];
    eexists; (split; [reflexivity |]); eauto 8.
Qed.

(** X2. An open-file request is issued exactly when the item is not a
    directory and all four gates are open; it is then addressed to the
    library and to the id of the resolved file-path record. *)
Theorem onDoubleClick_opens_iff_gates_open
    (getItemFilePath : ExplorerItem -> option FilePath.t)
    (library : Library) (platform : Platform)
    (explorerStore : ExplorerStore) (explorerConfig : ExplorerConfigStore)
    (data : ExplorerItem) :
  exists out,
    onDoubleClick getItemFilePath library platform explorerStore explorerConfig data
    = Normal (tt, out)
    /\ forall u id,
         In (OpenFilePath u id) out <->
         (forall item, data = Path item -> FilePath.is_dir item = false)
         /\ openFilePath platform = true
         /\ (exists fp, getItemFilePath data = Some fp /\ FilePath.id fp = id)
         /\ openOnDoubleClick explorerConfig = true
         /\ isRenaming explorerStore = false
         /\ u = uuid library.
Proof.
  destruct (onDoubleClick_cases getItemFilePath library platform explorerStore
              explorerConfig data)
    as [(item & p & s & -> & Hd & ->) | [(Hdir & Hg & ->)
       | [(fp & Hdir & (Ho & Hfp & Hp & Hr) & _ & ->)
         | (fp & oid & Hdir & (Ho & Hfp & Hp & Hr) & _ & ->)]]];
    eexists; (split; [reflexivity |]); intros u id; split.
  - intros [H | []]; discriminate.
  - intros (Hfile & _); specialize (Hfile item eq_refl); congruence.
  - intros [].
  - intros (_ & Ho & (fp & Hfp & _) & Hp & Hr & _).
    destruct Hg as [H | [H | [H | H]]]; congruence.
  - intros [H | []]; inversion H; subst.
    pose proof (proj1 (directory_of_None_inv data) Hdir) as Hfile; eauto 10.
  - intros (_ & _ & (fp' & Hfp' & <-) & _ & _ & ->).
    left; congruence.
  - intros [H | [H | []]]; inversion H; subst.
    pose proof (proj1 (directory_of_None_inv data) Hdir) as Hfile; eauto 10.
  - intros (_ & _ & (fp' & Hfp' & <-) & _ & _ & ->).
    right; left; congruence.
Qed.

(** X3. An access-time update for [oid] is issued exactly when the item is a
    non-directory [Path] item whose object id is [oid], not zero, and all
    four gates are open: never for an [Object] item, for a null or zero object
    id, or when the open request itself is withheld. *)
Theorem onDoubleClick_updates_access_time_iff
    (getItemFilePath : ExplorerItem -> option FilePath.t)
    (library : Library) (platform : Platform)
    (explorerStore : ExplorerStore) (explorerConfig : ExplorerConfigStore)
    (data : ExplorerItem) :
  exists out,
    onDoubleClick getItemFilePath library platform explorerStore explorerConfig data
    = Normal (tt, out)
    /\ forall oid,
         In (UpdateAccessTime oid) out <->
         (exists item,
             data = Path item /\ FilePath.is_dir item = false
             /\ FilePath.object_id item = Some oid /\ oid <> 0)
         /\ openFilePath platform = true
         /\ (exists fp, getItemFilePath data = Some fp)
         /\ openOnDoubleClick explorerConfig = true
         /\ isRenaming explorerStore = false.
Proof.
  destruct (onDoubleClick_cases getItemFilePath library platform explorerStore
              explorerConfig data)
    as [(item & p & s & -> & Hd & ->) | [(Hdir & Hg & ->)
       | [(fp & Hdir & (Ho & Hfp & Hp & Hr) & Hacc & ->)
         | (fp & oid' & Hdir & (Ho & Hfp & Hp & Hr) & Hacc & ->)]]];
    eexists; (split; [reflexivity |]); intros oid; split.
  - intros [H | []]; discriminate.
  - intros ((item' & Hitem & Hfile & _) & _); inversion Hitem; congruence.
  - intros [].
  - intros (_ & Ho & (fp & Hfp) & Hp & Hr).
    destruct Hg as [H | [H | [H | H]]]; congruence.
  - intros [H | []]; discriminate.
  - intros ((item & -> & _ & Hobj & Hnz) & _).
    rewrite (accessed_object_Some item oid Hobj Hnz) in Hacc; discriminate.
  - intros [H | [H | []]]; inversion H; subst.
    apply accessed_object_inv in Hacc as (item & -> & Hobj & Hnz).
    pose proof (proj1 (directory_of_None_inv _) Hdir) as Hfile.
    repeat split; eauto 10.
  - intros ((item & -> & _ & Hobj & Hnz) & _).
    rewrite (accessed_object_Some item oid Hobj Hnz) in Hacc.
    inversion Hacc; subst; left; reflexivity.
Qed.

(** X4. A navigation is issued exactly when the item is a [Path] item with
    [is_dir] set: files and [Object] items never navigate. *)
Theorem onDoubleClick_navigates_iff_directory
    (getItemFilePath : ExplorerItem -> option FilePath.t)
    (library : Library) (platform : Platform)
    (explorerStore : ExplorerStore) (explorerConfig : ExplorerConfigStore)
    (data : ExplorerItem) :
  exists out,
    onDoubleClick getItemFilePath library platform explorerStore explorerConfig data
    = Normal (tt, out)
    /\ ((exists pathname search, In (Navigate pathname search) out) <->
        exists item, data = Path item /\ FilePath.is_dir item = true).
Proof.
  destruct (onDoubleClick_cases getItemFilePath library platform explorerStore
              explorerConfig data)
    as [(item & p & s & -> & Hd & ->) | [(Hdir & _ & ->)
       | [(fp & Hdir & _ & _ & ->) | (fp & oid' & Hdir & _ & _ & ->)]]];
    eexists; (split; [reflexivity |]); split;
    try (intros (item & -> & Hd); simpl in Hdir; rewrite Hd in Hdir; discriminate).
  - intros _; eauto.
  - intros _; exists p, s; left; reflexivity.
  - intros (p & s & []).
  - intros (p & s & [H | []]); discriminate.
  - intros (p & s & [H | [H | []]]); discriminate.
Qed.





(** ** The dispatcher's two branches *)

Lemma ExplorerView_provider_inv
    (props : ExplorerViewProps.t) (isContextMenuOpen : bool)
    (ctx : ExplorerViewContext.t) (children : list Renderer) :
  content (ExplorerView props isContextMenuOpen) = Provider ctx children ->
  ExplorerViewContext.items (ExplorerViewProps.contextProps props) <> Some []
  /\ children = renderer_of (ExplorerViewProps.layout props)
  /\ ExplorerViewContext.contextMenu ctx
     = ExplorerViewContext.contextMenu (ExplorerViewProps.contextProps props)
  /\ ExplorerViewContext.setIsContextMenuOpen ctx = Some StateSetter.
Proof.
  unfold ExplorerView; simpl.
  destruct (ExplorerViewContext.items (ExplorerViewProps.contextProps props))
    as [[| a l] |] eqn:Hitems; simpl.
  - destruct (ExplorerViewProps.emptyNotice props) as [[| |] |]; discriminate.
  - intros H; inversion H; subst; simpl.
    repeat split; try discriminate.
    destruct (ExplorerViewProps.layout props); reflexivity.
  - intros H; inversion H; subst; simpl.
    repeat split; try discriminate.
    destruct (ExplorerViewProps.layout props); reflexivity.
Qed.

(** X6. Whenever the dispatcher binds a context, whether the collection is
    null or non-empty, what it mounts below is the renderer wired to the
    layout and nothing else: one renderer for [grid], [rows] and [media], none
    for [columns]; never two at once. *)
Theorem provider_mounts_renderer_of_layout
    (props : ExplorerViewProps.t) (isContextMenuOpen : bool)
    (ctx : ExplorerViewContext.t) (children : list Renderer) :
  content (ExplorerView props isContextMenuOpen) = Provider ctx children ->
  children = renderer_of (ExplorerViewProps.layout props)
  /\ (List.length children <= 1)%nat
  /\ (children = [] <-> ExplorerViewProps.layout props = columns).
Proof.
  intros H.
  destruct (ExplorerView_provider_inv props isContextMenuOpen ctx children H)
    as (_ & -> & _).
  split; [reflexivity |].
  destruct (ExplorerViewProps.layout props); simpl; repeat split;
    try lia; try discriminate; reflexivity.
Qed.

Lemma provider_mounts_renderer_of_layout_witness :
  [GridView] = renderer_of grid
  /\ (List.length [GridView] <= 1)%nat
  /\ ([GridView] = [] <-> grid = columns).
Proof.
  exact (provider_mounts_renderer_of_layout
           (example_props grid None (Some [Path notes_file]) (Some (Multiple [42])))
           true example_bound [GridView] eq_refl).
Defined.

(** X7. Unless the collection is an empty list, the empty notice plays no
    part: two renders that differ only in [emptyNotice] have the same
    content. *)
Theorem emptyNotice_ignored_unless_empty
    (layout : ExplorerLayoutMode) (className : option string)
    (emptyNotice emptyNotice' : option EmptyNotice.t)
    (contextProps : ExplorerViewContext.t) (isContextMenuOpen : bool) :
  ExplorerViewContext.items contextProps <> Some [] ->
  content (ExplorerView
             (ExplorerViewProps.mk layout className emptyNotice contextProps)
             isContextMenuOpen)
  = content (ExplorerView
               (ExplorerViewProps.mk layout className emptyNotice' contextProps)
               isContextMenuOpen).
Proof.
  intros Hne; unfold ExplorerView; simpl.
  destruct (ExplorerViewContext.items contextProps) as [[| a l] |];
    [contradiction | reflexivity | reflexivity].
Qed.

Lemma emptyNotice_ignored_unless_empty_witness :
  content (ExplorerView
             (ExplorerViewProps.mk rows None (Some EmptyNotice.null)
                (example_context None None))
             false)
  = content (ExplorerView
               (ExplorerViewProps.mk rows None None (example_context None None))
               false).
Proof.
  apply (emptyNotice_ignored_unless_empty rows None (Some EmptyNotice.null) None
           (example_context None None) false).
  discriminate.
Defined.

(** X8. With an empty collection the content is decided by the layout and
    the empty notice alone: the selection, the other context fields, the
    class name and the context-menu flag do not show in it. *)
Theorem empty_state_ignores_context
    (layout : ExplorerLayoutMode) (className className' : option string)
    (emptyNotice : option EmptyNotice.t)
    (contextProps contextProps' : ExplorerViewContext.t)
    (isContextMenuOpen isContextMenuOpen' : bool) :
  ExplorerViewContext.items contextProps = Some [] ->
  ExplorerViewContext.items contextProps' = Some [] ->
  content (ExplorerView
             (ExplorerViewProps.mk layout className emptyNotice contextProps)
             isContextMenuOpen)
  = content (ExplorerView
               (ExplorerViewProps.mk layout className' emptyNotice contextProps')
               isContextMenuOpen').
Proof.
  intros H H'; unfold ExplorerView; simpl.
  rewrite H, H'; reflexivity.
Qed.

Lemma empty_state_ignores_context_witness :
  content (ExplorerView
             (ExplorerViewProps.mk media None None
                (example_context (Some []) (Some (Single 3))))
             true)
  = content (ExplorerView
               (ExplorerViewProps.mk media (Some "p-2") None
                  (example_context (Some []) None))
               false).
Proof.
  apply (empty_state_ignores_context media None (Some "p-2") None
           (example_context (Some []) (Some (Single 3)))
           (example_context (Some []) None) true false);
    reflexivity.
Defined.

(** ** The wrapper below the dispatcher *)



Lemma last_nonempty_default {A} (a : A) (l : list A) (d d' : A) :
  last (a :: l) d = last (a :: l) d'.
Proof.
  revert a; induction l as [| b l IH]; intros a; [reflexivity |].
  change (last (b :: l) d = last (b :: l) d'); apply IH.
Qed.

Lemma fold_left_keep_last (events : list bool) (flag : bool) :
  fold_left (fun _ isOpen : bool => isOpen) events flag = last events flag.
Proof.
  revert flag; induction events as [| b events IH]; intros flag; [reflexivity |].
  simpl fold_left; rewrite IH.
  destruct events as [| b' events]; [reflexivity |].
  change (last (b' :: events) b = last (b' :: events) flag).
  apply last_nonempty_default.
Qed.

(** X10. The context-menu flag is a plain boolean, not a count: after any
    sequence of open-state reports from a wrapper below the dispatcher, the
    flag is the last report, and it is unchanged when there was none. *)
Theorem context_menu_flag_is_last_report
    (props : ExplorerViewProps.t) (isContextMenuOpen : bool)
    (ctx : ExplorerViewContext.t) (children : list Renderer)
    (outer : list (option ExplorerViewContext.t)) (root : ContextMenuRoot)
    (events : list bool) :
  content (ExplorerView props isContextMenuOpen) = Provider ctx children ->
  ViewItem (Some ctx :: outer) = Normal root ->
  after_open_changes root events isContextMenuOpen
  = last events isContextMenuOpen.
Proof.
  intros H Hroot.
  destruct (ExplorerView_provider_inv props isContextMenuOpen ctx children H)
    as (_ & _ & _ & Hset).
  unfold ViewItem in Hroot; simpl in Hroot; inversion Hroot; subst; clear Hroot.
  unfold after_open_changes, fire_onOpenChange; simpl; rewrite Hset.
  apply fold_left_keep_last.
Qed.

Lemma context_menu_flag_is_last_report_witness :
  after_open_changes
    {| onOpenChange := Some StateSetter; disabled := true; asChild := false;
       menu := NodeUndefined |}
    [true; true; false] true
  = false.
Proof.
  exact (context_menu_flag_is_last_report
           (example_props grid None (Some [Path notes_file]) (Some (Multiple [42])))
           true example_bound [GridView] []
           {| onOpenChange := Some StateSetter; disabled := true; asChild := false;
              menu := NodeUndefined |}
           [true; true; false] eq_refl eq_refl).
Defined.

(** ** Quick-view key: pressing twice, and where the shown item comes from *)

Lemma onSpace_store (contextProps : ExplorerViewContext.t) (store : ExplorerStore)
    (e : KeyboardEvent) :
  fst (onSpace contextProps store e)
  = match quickViewObject store with
    | None =>
        match find_item
                (id_is (first_selected (ExplorerViewContext.selected contextProps)))
                (ExplorerViewContext.items contextProps) with
        | Some item =>
            {| isRenaming := isRenaming store; quickViewObject := Some item |}
        | None => store
        end
    | Some _ => {| isRenaming := isRenaming store; quickViewObject := None |}
    end.
Proof.
  unfold onSpace.
  destruct (quickViewObject store); [reflexivity |].
  destruct (find_item _ _); reflexivity.
Qed.

(** X11. Starting with the quick view closed, two presses of the key under
    the same items and selection leave the store exactly as it was: the
    first opens the quick view (or does nothing when no item matches), the
    second closes it again. *)
Theorem onSpace_twice_from_closed
    (contextProps : ExplorerViewContext.t) (store : ExplorerStore)
    (e e' : KeyboardEvent) :
  quickViewObject store = None ->
  fst (onSpace contextProps (fst (onSpace contextProps store e)) e') = store.
Proof.
  intros Hslot.
  rewrite (onSpace_store contextProps store e), Hslot.
  destruct (find_item _ _) as [item |] eqn:Hfind.
  - rewrite onSpace_store; simpl.
    destruct store as [renaming slot]; simpl in *; subst; reflexivity.
  - rewrite onSpace_store, Hslot, Hfind; reflexivity.
Qed.

Lemma onSpace_twice_from_closed_witness :
  fst (onSpace (example_context (Some [Path notes_file]) (Some (Multiple [42])))
         (fst (onSpace
                 (example_context (Some [Path notes_file]) (Some (Multiple [42])))
                 {| isRenaming := false; quickViewObject := None |}
                 {| code := "Space"; defaultPrevented := false |}))
         {| code := "Space"; defaultPrevented := false |})
  = {| isRenaming := false; quickViewObject := None |}.
Proof.
  apply (onSpace_twice_from_closed
           (example_context (Some [Path notes_file]) (Some (Multiple [42])))
           {| isRenaming := false; quickViewObject := None |}
           {| code := "Space"; defaultPrevented := false |}
           {| code := "Space"; defaultPrevented := false |}).
  reflexivity.
Defined.

(** X12. Starting with the quick view open, two presses show the first item
    carrying the first selected id of the second press, whatever was shown
    before and whatever the selection was at the first press. *)
Theorem onSpace_twice_from_open
    (contextProps contextProps' : ExplorerViewContext.t) (store : ExplorerStore)
    (e e' : KeyboardEvent) (shown item : ExplorerItem) (sel : Z)
    (l : list ExplorerItem) :
  quickViewObject store = Some shown ->
  selection_head (ExplorerViewContext.selected contextProps') sel ->
  ExplorerViewContext.items contextProps' = Some l ->
  first_with_id sel l item ->
  quickViewObject
    (fst (onSpace contextProps' (fst (onSpace contextProps store e)) e'))
  = Some item.
Proof.
  intros Hslot Hsel Hitems Hfirst.
  rewrite (onSpace_store contextProps store e), Hslot.
  rewrite onSpace_store; simpl.
  apply selection_head_first_selected in Hsel.
  rewrite Hsel, Hitems; simpl.
  rewrite (find_first_with_id sel l item Hfirst); reflexivity.
Qed.

Lemma onSpace_twice_from_open_witness :
  quickViewObject
    (fst (onSpace (example_context (Some [Path reports_dir; Path notes_file])
                     (Some (Single 42)))
            (fst (onSpace (example_context None None)
                    {| isRenaming := false;
                       quickViewObject := Some (Path reports_dir) |}
                    {| code := "Space"; defaultPrevented := false |}))
            {| code := "Space"; defaultPrevented := false |}))
  = Some (Path notes_file).
Proof.
  apply (onSpace_twice_from_open (example_context None None)
           (example_context (Some [Path reports_dir; Path notes_file])
              (Some (Single 42)))
           {| isRenaming := false; quickViewObject := Some (Path reports_dir) |}
           {| code := "Space"; defaultPrevented := false |}
           {| code := "Space"; defaultPrevented := false |}
           (Path reports_dir) (Path notes_file) 42
           [Path reports_dir; Path notes_file]).
  - reflexivity.
  - left; reflexivity.
  - reflexivity.
  - exists [Path reports_dir], []; repeat split.
    constructor; [simpl; lia | constructor].
Defined.

(** X13. Whatever the quick-view slot holds after a press was put there by
    that press: the slot was empty before, and the item is a member of the
    current collection whose id is the first selected id.  The handler never
    shows an item from outside the collection, nor an unselected one. *)
Theorem onSpace_shows_only_selected_items
    (contextProps : ExplorerViewContext.t) (store : ExplorerStore)
    (e : KeyboardEvent) (item : ExplorerItem) :
  quickViewObject (fst (onSpace contextProps store e)) = Some item ->
  quickViewObject store = None
  /\ selection_head (ExplorerViewContext.selected contextProps) (item_id item)
  /\ exists l, ExplorerViewContext.items contextProps = Some l /\ In item l.
Proof.
  rewrite onSpace_store.
  destruct (quickViewObject store) as [shown |] eqn:Hslot; [discriminate |].
  destruct (find_item _ _) as [found |] eqn:Hfind; simpl; [| congruence].
  intros H; inversion H; subst; clear H.
  split; [reflexivity |].
  unfold find_item in Hfind.
  destruct (ExplorerViewContext.items contextProps) as [l |]; [| discriminate].
  apply find_some in Hfind as [Hin Hid].
  unfold id_is in Hid.
  destruct (first_selected _) as [sel |] eqn:Hsel; [| discriminate].
  apply Z.eqb_eq in Hid; subst sel.
  split; [apply selection_head_first_selected; exact Hsel | eauto].
Qed.

Lemma onSpace_shows_only_selected_items_witness :
  quickViewObject {| isRenaming := false; quickViewObject := None |} = None
  /\ selection_head (Some (Multiple [42])) (item_id (Path notes_file))
  /\ exists l, Some [Path notes_file] = Some l /\ In (Path notes_file) l.
Proof.
  exact (onSpace_shows_only_selected_items
           (example_context (Some [Path notes_file]) (Some (Multiple [42])))
           {| isRenaming := false; quickViewObject := None |}
           {| code := "Space"; defaultPrevented := false |}
           (Path notes_file) eq_refl).
Defined.

(** X14. Under multi-select only the head of the selection counts: two
    contexts with the same items whose selections have the same first id, be
    they lists of any tail or the bare id, make the handler do the same. *)
Theorem onSpace_reads_selection_head_only
    (contextProps contextProps' : ExplorerViewContext.t) (store : ExplorerStore)
    (e : KeyboardEvent) (sel : Z) :
  ExplorerViewContext.items contextProps = ExplorerViewContext.items contextProps' ->
  selection_head (ExplorerViewContext.selected contextProps) sel ->
  selection_head (ExplorerViewContext.selected contextProps') sel ->
  onSpace contextProps store e = onSpace contextProps' store e.
Proof.
  intros Hitems Hsel Hsel'.
  apply selection_head_first_selected in Hsel, Hsel'.
  unfold onSpace; rewrite Hitems, Hsel, Hsel'; reflexivity.
Qed.

Lemma onSpace_reads_selection_head_only_witness :
  onSpace (example_context (Some [Path notes_file]) (Some (Multiple [42; 41])))
    {| isRenaming := false; quickViewObject := None |}
    {| code := "Space"; defaultPrevented := false |}
  = onSpace (example_context (Some [Path notes_file]) (Some (Single 42)))
      {| isRenaming := false; quickViewObject := None |}
      {| code := "Space"; defaultPrevented := false |}.
Proof.
  apply (onSpace_reads_selection_head_only
           (example_context (Some [Path notes_file]) (Some (Multiple [42; 41])))
           (example_context (Some [Path notes_file]) (Some (Single 42)))
           {| isRenaming := false; quickViewObject := None |}
           {| code := "Space"; defaultPrevented := false |} 42).
  - reflexivity.
  - right; exists [41]; reflexivity.
  - left; reflexivity.
Defined.
